(** * Directory access layer of the [active_directory] Django application

    A shallow embedding of [active_directory/models.py] (class [Settings])
    together with the properties of its login normalisation, search-base
    derivation, LDAP filter construction, connection handling and result
    filtering.

    Conventions of the embedding:
    - a Python [str] is a [string]; a character is a code point below 256;
    - [None]-able values are [option]s, Python truthiness is written out;
    - the calls into [ldap3] are events appended to a trace, and what the
      directory server answers is a parameter ([directory]);
    - a raised exception is an [Err] result that keeps the trace built so
      far, so what happened before the raise stays observable. *)

From Stdlib Require Import Ascii ZArith.
From stdpp Require Import gmap strings list.

#[local] Arguments String.append !s1 s2 : simpl nomatch.

(** ** Python string primitives used by the module *)

Module Py.

(** [c in s] for a one-character needle. *)
Fixpoint contains (c : ascii) (s : string) : bool :=
  match s with
  | EmptyString => false
  | String a s' => if Ascii.eqb a c then true else contains c s'
  end.

(** [s.split(sep)] for a one-character separator: never an empty list,
    the empty string splits into one empty part. *)
Fixpoint split (sep : ascii) (s : string) : list string :=
  match s with
  | EmptyString => [EmptyString]
  | String a s' =>
      if Ascii.eqb a sep then EmptyString :: split sep s'
      else match split sep s' with
           | [] => [String a EmptyString]
           | p :: ps => String a p :: ps
           end
  end.

(** [sep.join(parts)]. *)
Fixpoint join (sep : string) (parts : list string) : string :=
  match parts with
  | [] => EmptyString
  | [p] => p
  | p :: ps => p +:+ sep +:+ join sep ps
  end.

(** [''.join(parts)]. *)
Fixpoint concat (parts : list string) : string :=
  match parts with
  | [] => EmptyString
  | p :: ps => p +:+ concat ps
  end.

Fixpoint lstrip (drop : ascii -> bool) (s : string) : string :=
  match s with
  | EmptyString => EmptyString
  | String a s' => if drop a then lstrip drop s' else s
  end.

Fixpoint rstrip (drop : ascii -> bool) (s : string) : string :=
  match s with
  | EmptyString => EmptyString
  | String a s' =>
      match rstrip drop s' with
      | EmptyString => if drop a then EmptyString else String a EmptyString
      | r => String a r
      end
  end.

(** [s.strip(chars)] removes every leading and every trailing character
    of the given set. *)
Definition strip_chars (drop : ascii -> bool) (s : string) : string :=
  rstrip drop (lstrip drop s).

(** [str.isspace] on one character, for code points below 256: TAB, LF, VT,
    FF, CR, the separators FS, GS, RS, US, the space, NEL and NBSP. *)
Definition isspace (c : ascii) : bool :=
  let n := N_of_ascii c in
  ((9 <=? n) && (n <=? 13) || (28 <=? n) && (n <=? 32)
   || (n =? 133) || (n =? 160))%N.

(** [s.strip()]. *)
Definition strip (s : string) : string := strip_chars isspace s.

(** Truthiness of a [str]: it is not empty. *)
Definition nonempty (s : string) : bool :=
  match s with
  | EmptyString => false
  | String _ _ => true
  end.

(** Truthiness of a value that is [None] or a [str]. *)
Definition truthy (o : option string) : bool :=
  match o with
  | Some s => nonempty s
  | None => false
  end.

End Py.

(** ** The [Settings] model *)

(** [username] and [password] are nullable columns; [domain] is not, and a
    [CharField] without a value holds the empty string. *)
Record Settings := mkSettings {
  username : option string;
  password : option string;
  domain : string;
  ssl : bool;
  port : Z
}.

(** [Settings.get_user_principal_name] (a static method). *)
Definition get_user_principal_name (username : option string) : option string :=
  match username with
  | None => None
  | Some username =>
      if Py.contains "@"%char username then Some username
      else if Py.contains "\"%char username then
        Some (Py.join "@" (rev (Py.split "\"%char username)))
      else None
  end.

(** [Settings.save], up to the call of the ORM's [save]: the result is the
    state handed to the storage layer. *)
Definition save (self : Settings) : Settings :=
  let username1 :=
    if Py.truthy (username self) then Py.strip <$> username self
    else username self in
  let domain1 :=
    if Py.nonempty (domain self) then Py.strip (domain self)
    else domain self in
  if negb (Py.truthy username1)
  then mkSettings None None domain1 (ssl self) (port self)
  else mkSettings username1 (password self) domain1 (ssl self) (port self).

(** ** Exceptions and the effect monad *)

Inductive exn :=
| AttributeError (msg : string)
| IndexError (msg : string)
| LDAPException (msg : string)
| LDAPSocketOpenError (msg : string)
| LDAPBindError (msg : string)
| LDAPSocketReceiveError (msg : string)
| LDAPInvalidPortError (msg : string).

Inductive result (A : Type) :=
| Ok (a : A)
| Err (e : exn).
Arguments Ok {A} a.
Arguments Err {A} e.

(** The server of [ldap3.Server(host, port=.., use_ssl=.., get_info=ALL)]. *)
Record Server := mkServer {
  host : string;
  server_port : Z;
  use_ssl : bool
}.

(** The session of [ldap3.Connection(server, user, password, ..)]. *)
Record Connection := mkConnection {
  conn_server : Server;
  conn_user : option string;
  conn_password : option string
}.

(** A search result is a Python dict; [entry.get(k)] is the lookup. *)
Abbreviation entry := (gmap string string).

(** What the generator of [paged_search] does when it is iterated: it
    delivers an entry, ends, or raises. *)
Inductive stream :=
| SEnd
| SRaise (e : exn)
| SYield (en : entry) (rest : stream).

(** The calls that reach the directory server. [EvBind] carries what the
    constructor with [auto_bind=True] answered: [None] for a bound session,
    or the exception it raised. *)
Inductive event :=
| EvBind (c : Connection) (reply : option exn)
| EvPagedSearch (c : Connection) (search_base search_filter attributes : string)
    (paged_size : Z)
| EvUnbind (c : Connection).

(** The behaviour of the library and of the server behind it:
    [server_reply] is the exception the constructor of [ldap3.Server] raises
    on its arguments, if any; [bind_reply] the one the constructor of
    [ldap3.Connection] raises when it opens the socket and binds, if any;
    [search_reply] the generator of a paged search. *)
Record directory := mkDirectory {
  server_reply : Server -> option exn;
  bind_reply : Connection -> option exn;
  search_reply : Connection -> string -> string -> string -> stream
}.

Definition M (A : Type) : Type := list event -> result A * list event.

Definition ret {A} (a : A) : M A := fun t => (Ok a, t).

Definition raise {A} (e : exn) : M A := fun t => (Err e, t).

Definition bind {A B} (m : M A) (k : A -> M B) : M B :=
  fun t =>
    match m t with
    | (Ok a, t') => k a t'
    | (Err e, t') => (Err e, t')
    end.

Definition emit (ev : event) : M unit := fun t => (Ok tt, t ++ [ev]).

(** A pure computation that may raise. *)
Definition lift {A} (r : result A) : M A := fun t => (r, t).

(** [try: m except <classes> as e: handler e]; the handler answers [None]
    for an exception outside the listed classes, which then propagates. *)
Definition try_except {A} (m : M A) (handler : exn -> option (M A)) : M A :=
  fun t =>
    match m t with
    | (Ok a, t') => (Ok a, t')
    | (Err e, t') =>
        match handler e with
        | Some h => h t'
        | None => (Err e, t')
        end
    end.

Notation "x <- m ;; k" := (bind m (fun x => k))
  (at level 100, m at next level, right associativity).
Notation "m ;;; k" := (bind m (fun _ => k))
  (at level 100, right associativity).

(** ** The [ldap3] calls *)

(** [ldap3.Server(host, port=port, use_ssl=use_ssl, get_info=ldap3.ALL)]:
    it checks its arguments and opens nothing. *)
Definition ldap3_Server (d : directory) (host : string) (port : Z)
    (use_ssl : bool) : M Server :=
  let server := mkServer host port use_ssl in
  match server_reply d server with
  | None => ret server
  | Some e => raise e
  end.

(** [ldap3.Connection(server, user, password, auto_bind=True)]. *)
Definition ldap3_Connection (d : directory) (server : Server)
    (user password : option string) : M Connection :=
  let c := mkConnection server user password in
  emit (EvBind c (bind_reply d c)) ;;;
  match bind_reply d c with
  | None => ret c
  | Some e => raise e
  end.

(** [connection.unbind()]. *)
Definition unbind (c : Connection) : M unit := emit (EvUnbind c).

(** [connection.extend.standard.paged_search(.., generator=True)]. *)
Definition paged_search (d : directory) (c : Connection)
    (search_base search_filter attributes : string) (paged_size : Z) : M stream :=
  emit (EvPagedSearch c search_base search_filter attributes paged_size) ;;;
  ret (search_reply d c search_base search_filter attributes).

(** ** The methods of [Settings] that reach the directory *)

Definition is_comma (c : ascii) : bool := Ascii.eqb c ","%char.

(** [Settings.get_search_base]. *)
Definition get_search_base (self : Settings) : result string :=
  match get_user_principal_name (username self) with
  | None => Err (AttributeError "'NoneType' object has no attribute 'split'")
  | Some username =>
      match Py.split "@"%char username !! 1%nat with
      | None => Err (IndexError "list index out of range")
      | Some dom =>
          Ok (Py.strip_chars is_comma
                (Py.concat (map (fun u => "dc=" +:+ u +:+ ",")
                                (Py.split "."%char dom))))
      end
  end.

(** Lines 74 to 76 of [get_connection]: the login the bind goes out with. *)
Definition effective_login (self : Settings)
    (login_username login_password : option string)
  : option string * option string :=
  if negb (Py.truthy login_username)
  then (username self, password self)
  else (login_username, login_password).

Definition is_open_or_bind_error (e : exn) : bool :=
  match e with
  | LDAPSocketOpenError _ | LDAPBindError _ => true
  | _ => false
  end.

(** [Settings.get_connection]. The Python value is a [Connection]; the
    caller tests it against [None], hence the [option]. *)
Definition get_connection (d : directory) (self : Settings)
    (login_username login_password : option string) : M (option Connection) :=
  let '(login_username, login_password) :=
    effective_login self login_username login_password in
  server <- ldap3_Server d (domain self) (port self) (ssl self) ;;
  let username := get_user_principal_name login_username in
  try_except
    (c <- ldap3_Connection d server username login_password ;; ret (Some c))
    (fun e => if is_open_or_bind_error e then Some (raise e) else None).

(** The [users] argument of [get_users_info_ad]: [None], a list or a tuple
    of account names, or a scalar. *)
Inductive users_arg :=
| UsersNone
| UsersList (l : list string)
| UsersTuple (l : list string)
| UsersStr (s : string)
| UsersInt (n : Z).

(** Python truthiness of the argument. *)
Definition users_truthy (users : users_arg) : bool :=
  match users with
  | UsersNone => false
  | UsersList l | UsersTuple l => negb (bool_decide (l = []))
  | UsersStr s => Py.truthy (Some s)
  | UsersInt n => negb (n =? 0)%Z
  end.

(** [isinstance(users, (list, tuple))], with the items when it holds. *)
Definition users_items (users : users_arg) : option (list string) :=
  match users with
  | UsersList l | UsersTuple l => Some l
  | _ => None
  end.

(** Lines 89 to 96: the LDAP filter. *)
Definition build_search_filter (users : users_arg) : result string :=
  if negb (users_truthy users) then Ok "(objectClass=person)"
  else
    match users_items users with
    | None => Err (LDAPException "Users must be list/tuple of users or None")
    | Some items =>
        let sam_account_names :=
          Py.concat (map (fun user => "(sAMAccountName=" +:+ Py.strip user +:+ ")")
                         items) in
        Ok ("(&(objectClass=person)(|" +:+ sam_account_names +:+ "))")
    end.

(** [entry.get('type') != 'searchResRef']. *)
Definition not_referral (en : entry) : bool :=
  bool_decide (en !! "type" ≠ Some "searchResRef").

(** The [for] loop of lines 105 to 115 over the generator, [results] being
    the list it appends to. *)
Fixpoint collect_entries (s : stream) (results : list entry) : M (list entry) :=
  match s with
  | SEnd => ret results
  | SRaise e => raise e
  | SYield en rest =>
      collect_entries rest (if not_referral en then results ++ [en] else results)
  end.

(** [Settings.get_users_info_ad]. *)
Definition get_users_info_ad (d : directory) (self : Settings)
    (login_username login_password : option string)
    (users : users_arg) (attributes : string) : M (list entry) :=
  search_filter <- lift (build_search_filter users) ;;
  search_base <- lift (get_search_base self) ;;
  connection <- get_connection d self login_username login_password ;;
  match connection with
  | None => raise (LDAPException "No active AD connections found")
  | Some c =>
      s <- paged_search d c search_base search_filter attributes 500 ;;
      results <- collect_entries s [] ;;
      match connection with
      | Some c' => unbind c'
      | None => ret tt
      end ;;;
      ret results
  end.

(** ** Vocabulary of the statements *)

(** One component of a distinguished name. *)
Definition dc_component (label : string) : string := "dc=" +:+ label.

(** The comma-joined components of a dotted domain name. *)
Definition dc_joined (dom : string) : string :=
  Py.join "," (map dc_component (Py.split "."%char dom)).

(** The last character of [s] is in the set; false on the empty string. *)
Fixpoint ends_in (drop : ascii -> bool) (s : string) : bool :=
  match s with
  | EmptyString => false
  | String a EmptyString => drop a
  | String a s' => ends_in drop s'
  end.

(** Every character of [s] is in the set. *)
Fixpoint all_in (drop : ascii -> bool) (s : string) : bool :=
  match s with
  | EmptyString => true
  | String a s' => drop a && all_in drop s'
  end.

(** A dotted name with every dot rewritten to [",dc="]: the comma-joined
    components without their leading ["dc="]. *)
Fixpoint dots_to_dc (s : string) : string :=
  match s with
  | EmptyString => EmptyString
  | String a s' =>
      if Ascii.eqb a "."%char then ",dc=" +:+ dots_to_dc s'
      else String a (dots_to_dc s')
  end.

(** The generator that delivers [es] and then behaves as [fin]. *)
Fixpoint yield_all (es : list entry) (fin : stream) : stream :=
  match es with
  | [] => fin
  | en :: es' => SYield en (yield_all es' fin)
  end.

(** The session [get_connection] asks for. *)
Definition login_connection (self : Settings)
    (login_username login_password : option string) : Connection :=
  let login := effective_login self login_username login_password in
  mkConnection (mkServer (domain self) (port self) (ssl self))
    (get_user_principal_name (fst login)) (snd login).

(** A bind without a user: [ldap3] then authenticates anonymously. *)
Definition is_anonymous_bind (ev : event) : bool :=
  match ev with
  | EvBind c _ => negb (Py.truthy (conn_user c))
  | _ => false
  end.

Definition is_unbind (ev : event) : bool :=
  match ev with
  | EvUnbind _ => true
  | _ => false
  end.

Definition is_bound (ev : event) : bool :=
  match ev with
  | EvBind _ None => true
  | _ => false
  end.

(** How many events of a kind a trace holds. *)
Definition count (kind : event -> bool) (t : list event) : nat :=
  length (List.filter kind t).

(** Both credentials are stored, or neither is. *)
Definition is_present (o : option string) : bool :=
  match o with
  | Some _ => true
  | None => false
  end.

Definition credentials_paired (self : Settings) : Prop :=
  is_present (username self) = is_present (password self).

(** ** Concrete inputs used by the examples below *)

Definition corp_settings (u p : option string) : Settings :=
  mkSettings u p "dc1.corp.example.com" false 389.

Definition bob : entry := {[ "type" := "searchResEntry"; "dn" := "cn=bob" ]}.
Definition carol : entry := {[ "type" := "searchResEntry"; "dn" := "cn=carol" ]}.
Definition referral : entry :=
  {[ "type" := "searchResRef"; "uri" := "ldap://dc2.corp.example.com" ]}.

(** A server that binds every session, also one without a user, and
    answers every search with two persons and a referral. *)
Definition open_directory : directory :=
  mkDirectory (fun _ => None) (fun _ => None)
    (fun _ _ _ _ => yield_all [bob; referral; carol] SEnd).

(** A server that binds every session and drops the socket after the first
    entry of a search. *)
Definition failing_directory : directory :=
  mkDirectory (fun _ => None) (fun _ => None)
    (fun _ _ _ _ => yield_all [bob] (SRaise (LDAPSocketReceiveError "socket closed"))).

(** ** The settings form ([forms.py]) *)

(** What [SettingsForm.clean] does: it returns, or raises
    [forms.ValidationError] with a message. *)
Inductive form_result :=
| FormValid
| ValidationError (msg : string).

(** [separators = ('@', '\\')], a tuple of one-character strings. *)
Definition separators : list ascii := ["@"%char; "\"%char].

(** [s.startswith(separators)]: [s] starts with one of them. *)
Definition startswith (prefixes : list ascii) (s : string) : bool :=
  match s with
  | EmptyString => false
  | String a _ => existsb (Ascii.eqb a) prefixes
  end.

(** [s.endswith(separators)]: [s] ends with one of them. *)
Fixpoint endswith (suffixes : list ascii) (s : string) : bool :=
  match s with
  | EmptyString => false
  | String a EmptyString => existsb (Ascii.eqb a) suffixes
  | String _ s' => endswith suffixes s'
  end.

(** [" or ".join(separators)]. *)
Definition separators_text : string :=
  Py.join " or " (map (fun c => String c EmptyString) separators).

(** [SettingsForm.clean]. [cleaned_data] is the dict that [super().clean()]
    returns: a field that failed its own validation is missing from it, a
    blank nullable field holds [None]. Only ["username"] is read. *)
Definition clean (cleaned_data : gmap string (option string)) : form_result :=
  let got :=
    match cleaned_data !! "username" with
    | Some v => v
    | None => None
    end in
  let username :=
    match got with
    | Some u => if Py.truthy got then u else EmptyString
    | None => EmptyString
    end in
  let username := Py.strip username in
  if startswith separators username || endswith separators username
  then ValidationError
         ("Username should not starts or ends with " +:+ separators_text +:+ ".")
  else if negb (existsb (fun separator => Py.contains separator username)
                        separators)
  then ValidationError ("Username should contain " +:+ separators_text +:+ ".")
  else FormValid.

(** ** The account-control values *)

Module UserAccountControlValues.

Definition SCRIPT : Z := 1.
Definition ACCOUNTDISABLE : Z := 2.
Definition HOMEDIR_REQUIRED : Z := 8.
Definition LOCKOUT : Z := 16.
Definition PASSWD_NOTREQD : Z := 32.
Definition PASSWD_CANT_CHANGE : Z := 64.
Definition ENCRYPTED_TEXT_PWD_ALLOWED : Z := 128.
Definition TEMP_DUPLICATE_ACCOUNT : Z := 256.
Definition NORMAL_ACCOUNT : Z := 512.
Definition INTERDOMAIN_TRUST_ACCOUNT : Z := 2048.
Definition WORKSTATION_TRUST_ACCOUNT : Z := 4096.
Definition SERVER_TRUST_ACCOUNT : Z := 8192.
Definition DONT_EXPIRE_PASSWORD : Z := 65536.
Definition MNS_LOGON_ACCOUNT : Z := 131072.
Definition SMARTCARD_REQUIRED : Z := 262144.
Definition TRUSTED_FOR_DELEGATION : Z := 524288.
Definition NOT_DELEGATED : Z := 1048576.
Definition USE_DES_KEY_ONLY : Z := 2097152.
Definition DONT_REQ_PREAUTH : Z := 4194304.
Definition PASSWORD_EXPIRED : Z := 8388608.
Definition TRUSTED_TO_AUTH_FOR_DELEGATION : Z := 16777216.
Definition PARTIAL_SECRETS_ACCOUNT : Z := 67108864.

(** The attributes of the class, in the order of the source. *)
Definition values : list Z :=
  [SCRIPT; ACCOUNTDISABLE; HOMEDIR_REQUIRED; LOCKOUT; PASSWD_NOTREQD;
   PASSWD_CANT_CHANGE; ENCRYPTED_TEXT_PWD_ALLOWED; TEMP_DUPLICATE_ACCOUNT;
   NORMAL_ACCOUNT; INTERDOMAIN_TRUST_ACCOUNT; WORKSTATION_TRUST_ACCOUNT;
   SERVER_TRUST_ACCOUNT; DONT_EXPIRE_PASSWORD; MNS_LOGON_ACCOUNT;
   SMARTCARD_REQUIRED; TRUSTED_FOR_DELEGATION; NOT_DELEGATED; USE_DES_KEY_ONLY;
   DONT_REQ_PREAUTH; PASSWORD_EXPIRED; TRUSTED_TO_AUTH_FOR_DELEGATION;
   PARTIAL_SECRETS_ACCOUNT].

End UserAccountControlValues.

(** The value of a set of flags: their bitwise or. *)
Definition flags_or (l : list Z) : Z := fold_right Z.lor 0%Z l.

(** More inputs for the examples. *)
Definition no_type : entry := {[ "dn" := "cn=dave" ]}.

(** * Properties *)

(** ** Facts about the string primitives *)

Section StringFacts.

Implicit Types (s a b : string) (c sep : ascii).

Lemma append_empty_r s : s +:+ "" = s.
Proof. induction s as [|x s IH]; simpl; [reflexivity | f_equal; exact IH]. Qed.

Lemma append_assoc a b s : (a +:+ b) +:+ s = a +:+ (b +:+ s).
Proof. induction a as [|x a IH]; simpl; [reflexivity | f_equal; exact IH]. Qed.

Lemma contains_app c a b :
  Py.contains c (a +:+ b) = Py.contains c a || Py.contains c b.
Proof.
  induction a as [|x a IH]; simpl; [reflexivity |].
  destruct (Ascii.eqb x c); [reflexivity | exact IH].
Qed.

Lemma split_not_nil sep s : Py.split sep s <> [].
Proof.
  destruct s as [|x s]; simpl; [discriminate |].
  destruct (Ascii.eqb x sep); [discriminate |].
  destruct (Py.split sep s); discriminate.
Qed.

(** The parts of a split contain no separator ... *)
Lemma split_parts_free sep s :
  Forall (fun p => Py.contains sep p = false) (Py.split sep s).
Proof.
  induction s as [|x s IH]; simpl.
  - repeat constructor.
  - destruct (Ascii.eqb x sep) eqn:E.
    + constructor; [reflexivity | exact IH].
    + destruct (Py.split sep s) as [|p ps].
      * repeat constructor. simpl. now rewrite E.
      * inversion IH; subst. constructor; [simpl; now rewrite E | assumption].
Qed.

(** ... and joining them with the separator gives the string back: the
    split is on every occurrence, and nothing else is lost or added. *)
Lemma join_split sep s : Py.join (String sep "") (Py.split sep s) = s.
Proof.
  induction s as [|x s IH]; simpl; [reflexivity |].
  pose proof (split_not_nil sep s) as Hne.
  destruct (Ascii.eqb x sep) eqn:E.
  - apply Ascii.eqb_eq in E; subst x.
    destruct (Py.split sep s) as [|p ps]; [contradiction |].
    change (Py.join (String sep "") ("" :: p :: ps))
      with (String sep (Py.join (String sep "") (p :: ps))).
    now rewrite IH.
  - destruct (Py.split sep s) as [|p ps]; [contradiction |].
    destruct ps as [|q qs]; simpl in *; now rewrite IH.
Qed.

Lemma split_free sep s : Py.contains sep s = false -> Py.split sep s = [s].
Proof.
  induction s as [|x s IH]; simpl; [reflexivity |].
  destruct (Ascii.eqb x sep); [discriminate |].
  intros H. now rewrite (IH H).
Qed.

Lemma split_app sep a b :
  Py.contains sep a = false ->
  Py.split sep (a +:+ String sep b) = a :: Py.split sep b.
Proof.
  induction a as [|x a IH]; simpl.
  - now rewrite Ascii.eqb_refl.
  - destruct (Ascii.eqb x sep); [discriminate |].
    intros H. now rewrite (IH H).
Qed.

(** The split is the only such cut: separator-free parts are found again
    when their join is split. *)
Lemma split_join sep (parts : list string) :
  parts <> [] ->
  Forall (fun p => Py.contains sep p = false) parts ->
  Py.split sep (Py.join (String sep "") parts) = parts.
Proof.
  induction parts as [|p ps IH]; [contradiction |]. intros _ F.
  inversion F as [|? ? Hp Hps]; subst.
  destruct ps as [|q qs]; [now apply split_free |].
  change (Py.join (String sep "") (p :: q :: qs))
    with (p +:+ String sep (Py.join (String sep "") (q :: qs))).
  rewrite split_app by assumption. f_equal. now apply IH.
Qed.

Lemma split_two sep s :
  Py.contains sep s = true -> (2 <= length (Py.split sep s))%nat.
Proof.
  intros H.
  pose proof (split_not_nil sep s) as Hn.
  pose proof (join_split sep s) as J.
  pose proof (split_parts_free sep s) as F.
  destruct (Py.split sep s) as [|a [|b ps]]; [contradiction | | simpl; lia].
  simpl in J. subst a. inversion F; subst. congruence.
Qed.

Lemma contains_join_two sep (parts : list string) :
  (2 <= length parts)%nat ->
  Py.contains sep (Py.join (String sep "") parts) = true.
Proof.
  destruct parts as [|x [|y l]]; simpl length; try lia. intros _.
  change (Py.join (String sep "") (x :: y :: l))
    with (x +:+ String sep (Py.join (String sep "") (y :: l))).
  rewrite contains_app. simpl. rewrite Ascii.eqb_refl. apply orb_true_r.
Qed.

Lemma lstrip_kept drop x s : drop x = false -> Py.lstrip drop (String x s) = String x s.
Proof. intros H. simpl. now rewrite H. Qed.

Lemma rstrip_snoc_dropped drop x s :
  drop x = true -> Py.rstrip drop (s +:+ String x "") = Py.rstrip drop s.
Proof.
  intros H. induction s as [|y s IH]; simpl; [now rewrite H |].
  now rewrite IH.
Qed.

Lemma rstrip_no_trailing drop s : ends_in drop (Py.rstrip drop s) = false.
Proof.
  induction s as [|x s IH]; [reflexivity |]. simpl.
  destruct (Py.rstrip drop s) as [|y r].
  - destruct (drop x) eqn:E; simpl; [reflexivity | exact E].
  - exact IH.
Qed.

(** [lstrip] removes a prefix of characters of the set, and all of them. *)
Lemma lstrip_prefix drop s :
  exists l, s = l +:+ Py.lstrip drop s /\ all_in drop l = true.
Proof.
  induction s as [|x s (l & IH & Hl)]; [now exists "" |]. simpl.
  destruct (drop x) eqn:E.
  - exists (String x l). simpl. rewrite E, Hl. split; [now f_equal | reflexivity].
  - now exists "".
Qed.

Lemma lstrip_head drop s x r : Py.lstrip drop s = String x r -> drop x = false.
Proof.
  induction s as [|y s IH]; [discriminate |]. simpl.
  destruct (drop y) eqn:E; [exact IH |]. now intros [= <- _].
Qed.

(** [rstrip] removes a suffix of characters of the set, and all of them. *)
Lemma rstrip_suffix drop s :
  exists r, s = Py.rstrip drop s +:+ r /\ all_in drop r = true.
Proof.
  induction s as [|x s (r & IH & Hr)]; [now exists "" |]. simpl.
  destruct (Py.rstrip drop s) as [|y q] eqn:R.
  - simpl in IH. subst r. destruct (drop x) eqn:E.
    + exists (String x s). simpl. now rewrite E, Hr.
    + now exists s.
  - exists r. split; [| exact Hr]. simpl. f_equal. exact IH.
Qed.

(** [strip]: the string is the result between two runs of whitespace, and
    the result neither starts nor ends with whitespace. *)
Lemma strip_spec s :
  (exists l r, s = l +:+ Py.strip s +:+ r
               /\ all_in Py.isspace l = true /\ all_in Py.isspace r = true)
  /\ Py.lstrip Py.isspace (Py.strip s) = Py.strip s
  /\ ends_in Py.isspace (Py.strip s) = false.
Proof.
  unfold Py.strip, Py.strip_chars. split_and!.
  - destruct (lstrip_prefix Py.isspace s) as (l & Hl & Al).
    destruct (rstrip_suffix Py.isspace (Py.lstrip Py.isspace s)) as (r & Hr & Ar).
    exists l, r. split_and!; try assumption. now rewrite <- Hr.
  - destruct (Py.lstrip Py.isspace s) as [|x q] eqn:L; [reflexivity |].
    apply lstrip_head in L. simpl.
    destruct (Py.rstrip Py.isspace q); rewrite ?L; simpl; now rewrite L.
  - apply rstrip_no_trailing.
Qed.

End StringFacts.

(** ** Facts about the search base *)

Section SearchBaseFacts.

Implicit Types (s dom : string) (ls : list string).

Lemma concat_dc ls :
  ls <> [] ->
  Py.concat (map (fun u => "dc=" +:+ u +:+ ",") ls)
  = Py.join "," (map dc_component ls) +:+ ",".
Proof.
  induction ls as [|l ls IH]; [contradiction |]. intros _.
  destruct ls as [|l' ls].
  - simpl. unfold dc_component. simpl. now rewrite append_empty_r.
  - change (Py.concat (map (fun u => "dc=" +:+ u +:+ ",") (l :: l' :: ls)))
      with (("dc=" +:+ l +:+ ",")
            +:+ Py.concat (map (fun u => "dc=" +:+ u +:+ ",") (l' :: ls))).
    rewrite IH by discriminate.
    change (Py.join "," (map dc_component (l :: l' :: ls)))
      with (dc_component l +:+ "," +:+ Py.join "," (map dc_component (l' :: ls))).
    unfold dc_component. now rewrite !append_assoc.
Qed.

Lemma dc_joined_dots dom : dc_joined dom = "dc=" +:+ dots_to_dc dom.
Proof.
  unfold dc_joined. induction dom as [|a s IH]; [reflexivity |].
  pose proof (split_not_nil "."%char s) as Hne.
  simpl. destruct (Ascii.eqb a "."%char).
  - destruct (Py.split "."%char s) as [|p ps]; [contradiction |].
    change (Py.join "," (map dc_component ("" :: p :: ps)))
      with ("dc=," +:+ Py.join "," (map dc_component (p :: ps))).
    now rewrite IH.
  - destruct (Py.split "."%char s) as [|p ps]; [contradiction |].
    destruct ps as [|q qs]; simpl in *; unfold dc_component in *; simpl in *;
      injection IH as IH; now rewrite IH.
Qed.

Lemma ends_in_dots dom :
  ends_in is_comma (dots_to_dc dom) = ends_in is_comma dom.
Proof.
  induction dom as [|a s IH]; [reflexivity |].
  destruct s as [|b s].
  - simpl. destruct (Ascii.eqb a "."%char) eqn:E; [| reflexivity].
    apply Ascii.eqb_eq in E. now subst a.
  - change (ends_in is_comma (String a (String b s)))
      with (ends_in is_comma (String b s)).
    rewrite <- IH.
    change (dots_to_dc (String a (String b s)))
      with (if Ascii.eqb a "."%char then ",dc=" +:+ dots_to_dc (String b s)
            else String a (dots_to_dc (String b s))).
    assert (exists x r, dots_to_dc (String b s) = String x r) as (x & r & ->).
    { simpl. destruct (Ascii.eqb b "."%char); simpl; eauto. }
    now destruct (Ascii.eqb a "."%char).
Qed.

Lemma ends_in_dc_joined dom :
  ends_in is_comma (dc_joined dom) = ends_in is_comma dom.
Proof.
  rewrite dc_joined_dots, <- (ends_in_dots dom).
  now destruct (dots_to_dc dom).
Qed.

Lemma rstrip_fixed drop s : ends_in drop s = false -> Py.rstrip drop s = s.
Proof.
  induction s as [|a s IH]; [reflexivity |].
  destruct s as [|b s].
  - simpl. now intros ->.
  - intros H. change (ends_in drop (String b s) = false) in H.
    change (Py.rstrip drop (String a (String b s)))
      with (match Py.rstrip drop (String b s) with
            | EmptyString => if drop a then EmptyString else String a EmptyString
            | r => String a r
            end).
    now rewrite (IH H).
Qed.

(** What [get_search_base] computes from the text after the ['@']. *)
Lemma strip_concat_dc dom :
  Py.strip_chars is_comma
    (Py.concat (map (fun u => "dc=" +:+ u +:+ ",") (Py.split "."%char dom)))
  = Py.rstrip is_comma (dc_joined dom).
Proof.
  rewrite concat_dc by apply split_not_nil.
  fold (dc_joined dom). rewrite dc_joined_dots.
  unfold Py.strip_chars.
  change (("dc=" +:+ dots_to_dc dom) +:+ ",")
    with (String "d" (("c=" +:+ dots_to_dc dom) +:+ ",")).
  rewrite lstrip_kept by reflexivity.
  change (String "d" (("c=" +:+ dots_to_dc dom) +:+ ","))
    with (("dc=" +:+ dots_to_dc dom) +:+ ",").
  now apply rstrip_snoc_dropped.
Qed.

Lemma split_principal user dom :
  Py.contains "@"%char user = false -> Py.contains "@"%char dom = false ->
  Py.split "@"%char (user +:+ "@" +:+ dom) = [user; dom].
Proof.
  intros Hu Hd.
  change (user +:+ "@" +:+ dom) with (user +:+ String "@" dom).
  now rewrite split_app, split_free.
Qed.

End SearchBaseFacts.

(** ** Login normalisation *)

(** C1. [get_user_principal_name] follows the case analysis of the
    specification on every input: [None] and the empty string give [None];
    a login that contains ['@'] comes back unchanged; a login without ['@']
    that contains a backslash is cut at every backslash (the parts hold no
    backslash and give the login back when joined with backslashes), and the
    parts are joined with ['@'] in reverse order: a login made of the parts
    [p0\p1\..\pn] gives [pn@..@p1@p0], so that [domain\user] gives
    [user@domain] and [a\b\c] gives [c@b@a]; any other login gives [None].
    The function is a total function into [option string]: it has no error
    result to return. *)
Theorem get_user_principal_name_cases :
  get_user_principal_name None = None
  /\ get_user_principal_name (Some "") = None
  /\ (forall s, Py.contains "@"%char s = true ->
        get_user_principal_name (Some s) = Some s)
  /\ (forall s, Py.contains "@"%char s = false -> Py.contains "\"%char s = true ->
        let parts := Py.split "\"%char s in
        Py.join "\" parts = s
        /\ Forall (fun p => Py.contains "\"%char p = false) parts
        /\ get_user_principal_name (Some s) = Some (Py.join "@" (rev parts)))
  /\ (forall parts,
        (2 <= length parts)%nat ->
        Forall (fun p => Py.contains "\"%char p = false) parts ->
        Py.contains "@"%char (Py.join "\" parts) = false ->
        get_user_principal_name (Some (Py.join "\" parts))
        = Some (Py.join "@" (rev parts)))
  /\ (forall dom user,
        Py.contains "@"%char dom = false -> Py.contains "\"%char dom = false ->
        Py.contains "@"%char user = false -> Py.contains "\"%char user = false ->
        get_user_principal_name (Some (dom +:+ "\" +:+ user))
        = Some (user +:+ "@" +:+ dom))
  /\ get_user_principal_name (Some "a\b\c") = Some "c@b@a"
  /\ (forall s, Py.contains "@"%char s = false -> Py.contains "\"%char s = false ->
        get_user_principal_name (Some s) = None).
Proof.
  repeat split.
  - intros s H. simpl. now rewrite H.
  - apply join_split.
  - apply split_parts_free.
  - simpl. now rewrite H, H0.
  - intros parts Hlen F Hat. simpl. rewrite Hat.
    rewrite (contains_join_two "\"%char) by assumption.
    rewrite split_join; [reflexivity | | assumption].
    intros ->. simpl in Hlen. lia.
  - intros dom user Hd1 Hd2 Hu1 Hu2. simpl.
    change (dom +:+ "\" +:+ user) with (dom +:+ String "\" user).
    rewrite contains_app, Hd1. simpl. rewrite Hu1.
    rewrite contains_app, Hd2. simpl.
    now rewrite split_app, split_free.
  - intros s H1 H2. simpl. now rewrite H1, H2.
Qed.

Lemma get_user_principal_name_cases_witness :
  get_user_principal_name (Some "corp\alice") = Some "alice@corp".
Proof.
  exact (proj1 (proj2 (proj2 (proj2 (proj2 (proj2
                  get_user_principal_name_cases)))))
           "corp" "alice" eq_refl eq_refl eq_refl eq_refl).
Defined.

(** A resolved principal always holds an ['@'], so the index [1] of
    [get_search_base] is never out of range. *)
Lemma principal_has_at u p :
  get_user_principal_name u = Some p -> Py.contains "@"%char p = true.
Proof.
  destruct u as [s|]; [| discriminate]. simpl.
  destruct (Py.contains "@"%char s) eqn:E1; [intros [= <-]; exact E1 |].
  destruct (Py.contains "\"%char s) eqn:E2; [| discriminate].
  intros [= <-].
  apply (contains_join_two "@"%char). rewrite length_rev.
  now apply split_two.
Qed.

(** So [get_search_base] fails only on an unresolved username, with the
    [AttributeError] of [None.split]. *)
Lemma get_search_base_defined (self : Settings) (p : string) :
  get_user_principal_name (username self) = Some p ->
  exists base, get_search_base self = Ok base.
Proof.
  intros H. unfold get_search_base. rewrite H.
  apply principal_has_at in H. apply split_two in H.
  destruct (Py.split "@"%char p) as [|a [|b ps]]; simpl in H; try lia.
  simpl. eauto.
Qed.

(** ** Search base *)

Example search_base_three_labels :
  get_search_base (corp_settings (Some "alice@corp.example.com") (Some "pw"))
  = Ok "dc=corp,dc=example,dc=com".
Proof. reflexivity. Qed.

Example search_base_one_label :
  get_search_base (corp_settings (Some "alice@single") (Some "pw")) = Ok "dc=single".
Proof. reflexivity. Qed.

(** C2, as stated, fails: the principal [alice@corp,,] holds one ['@'] and
    its domain has the single label [corp,,], whose component is [dc=corp,,];
    [get_search_base] answers [dc=corp], which is neither the joined
    components nor the joined components less one trailing comma. *)
Lemma get_search_base_trailing_comma :
  get_user_principal_name (username (corp_settings (Some "alice@corp,,") None))
  = Some ("alice" +:+ "@" +:+ "corp,,")
  /\ Py.contains "@"%char "alice" = false
  /\ Py.contains "@"%char "corp,," = false
  /\ Py.split "."%char "corp,," = ["corp,,"]
  /\ dc_joined "corp,," = "dc=corp,,"
  /\ get_search_base (corp_settings (Some "alice@corp,,") None) = Ok "dc=corp"
  /\ get_search_base (corp_settings (Some "alice@corp,,") None)
     <> Ok (dc_joined "corp,,")
  /\ get_search_base (corp_settings (Some "alice@corp,,") None) <> Ok "dc=corp,".
Proof. repeat split; discriminate. Qed.

(** C2, amended. For a principal [user@dom] with one ['@'], [get_search_base]
    splits [dom] at every dot, wraps each label as [dc=<label>], joins the
    components with commas in label order, and removes every trailing comma
    of the result, which therefore ends in none; when [dom] does not end in
    a comma the result is exactly the comma-joined components. *)
Theorem get_search_base_one_at (self : Settings) (user dom : string) :
  get_user_principal_name (username self) = Some (user +:+ "@" +:+ dom) ->
  Py.contains "@"%char user = false ->
  Py.contains "@"%char dom = false ->
  get_search_base self = Ok (Py.rstrip is_comma (dc_joined dom))
  /\ ends_in is_comma (Py.rstrip is_comma (dc_joined dom)) = false
  /\ (ends_in is_comma dom = false -> get_search_base self = Ok (dc_joined dom)).
Proof.
  intros Hp Hu Hd.
  assert (get_search_base self = Ok (Py.rstrip is_comma (dc_joined dom))) as E.
  { unfold get_search_base. rewrite Hp, split_principal by assumption.
    change ([user; dom] !! 1%nat) with (Some dom). cbv beta iota.
    f_equal. apply strip_concat_dc. }
  split_and!; [exact E | apply rstrip_no_trailing |].
  intros Hend. rewrite E, rstrip_fixed; [reflexivity |].
  now rewrite ends_in_dc_joined.
Qed.

Lemma get_search_base_one_at_witness :
  get_search_base (corp_settings (Some "corp.example.com\alice") (Some "pw"))
  = Ok "dc=corp,dc=example,dc=com".
Proof.
  exact (proj2 (proj2 (get_search_base_one_at
                  (corp_settings (Some "corp.example.com\alice") (Some "pw"))
                  "alice" "corp.example.com" eq_refl eq_refl eq_refl)) eq_refl).
Defined.

(** ** Saving the settings *)

Lemma save_eq (self : Settings) :
  save self =
  if Py.truthy (Py.strip <$> username self)
  then mkSettings (Py.strip <$> username self) (password self)
                  (Py.strip (domain self)) (ssl self) (port self)
  else mkSettings None None (Py.strip (domain self)) (ssl self) (port self).
Proof.
  assert (Hu : forall o : option string,
             (if Py.truthy o then Py.strip <$> o else o) = Py.strip <$> o).
  { intros [[|x r]|]; reflexivity. }
  assert (Hd : forall s : string,
             (if Py.nonempty s then Py.strip s else s) = Py.strip s).
  { intros [|x r]; reflexivity. }
  unfold save. rewrite Hu, Hd.
  now destruct (Py.truthy (Py.strip <$> username self)).
Qed.

(** C7, as stated, fails: a username saved without a password stays
    without one, so the two are not both present or both absent. *)
Lemma save_username_without_password :
  username (save (corp_settings (Some "admin@corp.example.com") None))
  = Some "admin@corp.example.com"
  /\ password (save (corp_settings (Some "admin@corp.example.com") None)) = None
  /\ ~ credentials_paired (save (corp_settings (Some "admin@corp.example.com") None)).
Proof. repeat split. discriminate. Qed.

(** C7, amended. [save] stores the username and the domain trimmed of
    whitespace; when the username is absent or trims to the empty string the
    stored username and password are both [None]; otherwise the password is
    stored as it was given. Hence a password is never stored without a
    username, and a state whose username and password were both present or
    both absent stays so; a username given without a password is stored
    without one. *)
Theorem save_normalises (self : Settings) :
  domain (save self) = Py.strip (domain self)
  /\ (forall u, username self = Some u -> Py.strip u <> "" ->
        username (save self) = Some (Py.strip u)
        /\ password (save self) = password self)
  /\ (username self = None \/ (exists u, username self = Some u /\ Py.strip u = "") ->
        username (save self) = None /\ password (save self) = None)
  /\ (username (save self) = None -> password (save self) = None)
  /\ (credentials_paired self -> credentials_paired (save self))
  /\ ssl (save self) = ssl self
  /\ port (save self) = port self.
Proof.
  rewrite save_eq. destruct self as [u p dm s n].
  unfold credentials_paired. simpl.
  destruct u as [u|]; simpl; [destruct (Py.strip u) as [|x r] eqn:E; simpl |].
  all: split_and!; try reflexivity.
  all: try (intros u0 [= <-] H; rewrite E in *; now try split).
  all: try (intros [[=] | (u0 & [= <-] & H)]; rewrite E in *; now try split).
  all: try discriminate.
  all: try (intros u0 [=]).
  all: try (intros <-; reflexivity).
  all: now destruct p.
Qed.

Lemma save_normalises_witness :
  username (save (corp_settings (Some "  ") (Some "secret"))) = None
  /\ password (save (corp_settings (Some "  ") (Some "secret"))) = None.
Proof.
  apply (proj1 (proj2 (proj2
           (save_normalises (corp_settings (Some "  ") (Some "secret")))))).
  right. exists "  ". split; reflexivity.
Defined.

(** ** Runs of the methods that reach the directory *)

Section Runs.

Variable d : directory.
Variable self : Settings.
Variables login_username login_password : option string.

(** [get_connection] builds the server and then makes one bind attempt,
    for the session of the effective login; it fails exactly when one of the
    two raises. *)
Lemma get_connection_run (t : list event) :
  get_connection d self login_username login_password t =
  let c := login_connection self login_username login_password in
  match server_reply d (conn_server c) with
  | Some e => (Err e, t)
  | None =>
      (match bind_reply d c with
       | None => Ok (Some c)
       | Some e => Err e
       end, t ++ [EvBind c (bind_reply d c)])
  end.
Proof.
  unfold get_connection, login_connection.
  destruct (effective_login self login_username login_password) as [u p].
  cbv [try_except bind ldap3_Server ldap3_Connection emit ret raise fst snd
       conn_server].
  destruct (server_reply d _) as [e|]; [reflexivity |].
  destruct (bind_reply d _) as [e|]; [| reflexivity].
  now destruct (is_open_or_bind_error e).
Qed.

(** Iterating the generator touches no trace: the entries were requested
    by the [EvPagedSearch] before it. *)
Lemma collect_entries_trace (s : stream) (acc : list entry) (t : list event) :
  collect_entries s acc t = (fst (collect_entries s acc []), t).
Proof.
  revert acc. induction s as [|e|en rest IH]; intros acc; simpl; try reflexivity.
  apply IH.
Qed.

Lemma collect_entries_yield_all (es : list entry) (fin : stream)
    (acc : list entry) (t : list event) :
  collect_entries (yield_all es fin) acc t
  = collect_entries fin (acc ++ List.filter not_referral es) t.
Proof.
  revert acc. induction es as [|en es IH]; intros acc; simpl.
  - now rewrite app_nil_r.
  - rewrite IH. destruct (not_referral en); [| reflexivity].
    now rewrite <- app_assoc.
Qed.

(** Every generator delivers finitely many entries and then ends or raises. *)
Lemma stream_cases (s : stream) :
  exists es, s = yield_all es SEnd \/ exists e, s = yield_all es (SRaise e).
Proof.
  induction s as [|e|en rest [es [-> | [e ->]]]].
  - exists []. now left.
  - exists []. right. now exists e.
  - exists (en :: es). now left.
  - exists (en :: es). right. now exists e.
Qed.

(** The whole of [get_users_info_ad], stage by stage. *)
Lemma get_users_info_ad_run (users : users_arg) (attributes : string)
    (t : list event) :
  get_users_info_ad d self login_username login_password users attributes t =
  match build_search_filter users with
  | Err e => (Err e, t)
  | Ok search_filter =>
      match get_search_base self with
      | Err e => (Err e, t)
      | Ok search_base =>
          let c := login_connection self login_username login_password in
          match server_reply d (conn_server c) with
          | Some e => (Err e, t)
          | None =>
              match bind_reply d c with
              | Some e => (Err e, t ++ [EvBind c (Some e)])
              | None =>
                  let searched :=
                    t ++ [EvBind c None;
                          EvPagedSearch c search_base search_filter attributes
                            500%Z] in
                  match fst (collect_entries
                               (search_reply d c search_base search_filter
                                  attributes)
                               [] []) with
                  | Ok results => (Ok results, searched ++ [EvUnbind c])
                  | Err e => (Err e, searched)
                  end
              end
          end
      end
  end.
Proof.
  unfold get_users_info_ad, bind at 1, lift.
  destruct (build_search_filter users) as [f|e]; [| reflexivity].
  unfold bind at 1.
  destruct (get_search_base self) as [base|e]; [| reflexivity].
  unfold bind at 1. rewrite get_connection_run. cbv zeta.
  destruct (server_reply d _) as [e|]; [reflexivity |].
  destruct (bind_reply d _) as [e|]; [reflexivity |].
  unfold bind, paged_search, emit, ret, unbind. simpl.
  rewrite collect_entries_trace.
  destruct (fst (collect_entries _ [] [])); now rewrite <- !app_assoc.
Qed.

End Runs.

(** Where a search event of a run comes from: the filter built from
    [users], the base derived from the stored username, the session of the
    effective login after a successful bind, pages of 500. *)
Lemma search_event_origin d self lu lp users attributes c base f a n :
  In (EvPagedSearch c base f a n)
     (snd (get_users_info_ad d self lu lp users attributes [])) ->
  build_search_filter users = Ok f
  /\ get_search_base self = Ok base
  /\ c = login_connection self lu lp
  /\ server_reply d (conn_server c) = None
  /\ bind_reply d c = None
  /\ a = attributes /\ n = 500%Z.
Proof.
  rewrite get_users_info_ad_run.
  destruct (build_search_filter users) as [f'|e]; [| intros []].
  destruct (get_search_base self) as [base'|e]; [| intros []].
  cbv zeta.
  destruct (server_reply d (conn_server (login_connection self lu lp)))
    as [e|] eqn:S; [intros [] |].
  destruct (bind_reply d (login_connection self lu lp)) as [e|] eqn:B.
  - intros [[=] | []].
  - destruct (fst (collect_entries _ [] [])); simpl;
      intros H; repeat (destruct H as [[=] | H]); try contradiction; subst; tauto.
Qed.

(** ** The LDAP filter *)

(** A run that builds its filter and its base and binds goes on to search,
    once, with that filter and that base, in pages of 500. *)
Lemma bound_run_searches d self lu lp users attributes t f base :
  build_search_filter users = Ok f ->
  get_search_base self = Ok base ->
  server_reply d (conn_server (login_connection self lu lp)) = None ->
  bind_reply d (login_connection self lu lp) = None ->
  exists tail,
    snd (get_users_info_ad d self lu lp users attributes t)
    = t ++ [EvBind (login_connection self lu lp) None;
            EvPagedSearch (login_connection self lu lp) base f attributes 500%Z]
        ++ tail
    /\ (tail = [] \/ tail = [EvUnbind (login_connection self lu lp)]).
Proof.
  intros Hf Hb Hsrv Hbind.
  rewrite get_users_info_ad_run, Hf, Hb. cbv zeta. rewrite Hsrv, Hbind.
  destruct (fst (collect_entries _ [] [])).
  - exists [EvUnbind (login_connection self lu lp)]. simpl.
    split; [now rewrite <- app_assoc | now right].
  - exists []. split; [reflexivity | now left].
Qed.

(** C3. The filter of [get_users_info_ad]: without identifiers, or with an
    empty list or tuple, it is [(objectClass=person)]; for a non-empty list
    or tuple every identifier is trimmed and wrapped as
    [(sAMAccountName=<id>)], the terms are concatenated in list order inside
    [(|...)], and the group is AND-combined with the base filter. A call
    whose search base is derived and whose bind succeeds sends exactly this
    filter, in one paged search right after the bind, and no search of a run
    carries another filter. *)
Theorem search_filter_construction :
  build_search_filter UsersNone = Ok "(objectClass=person)"
  /\ build_search_filter (UsersList []) = Ok "(objectClass=person)"
  /\ build_search_filter (UsersTuple []) = Ok "(objectClass=person)"
  /\ (forall ids, ids <> [] ->
        let terms :=
          Py.concat (map (fun id => "(sAMAccountName=" +:+ Py.strip id +:+ ")") ids) in
        build_search_filter (UsersList ids)
        = Ok ("(&(objectClass=person)(|" +:+ terms +:+ "))")
        /\ build_search_filter (UsersTuple ids)
           = Ok ("(&(objectClass=person)(|" +:+ terms +:+ "))"))
  /\ build_search_filter (UsersList ["bob"; "carol"])
     = Ok "(&(objectClass=person)(|(sAMAccountName=bob)(sAMAccountName=carol)))"
  /\ (forall d self lu lp users attributes c base f a n,
        In (EvPagedSearch c base f a n)
           (snd (get_users_info_ad d self lu lp users attributes [])) ->
        build_search_filter users = Ok f)
  /\ (forall d self lu lp users attributes t base,
        users = UsersNone \/ users = UsersList [] \/ users = UsersTuple [] ->
        get_search_base self = Ok base ->
        server_reply d (conn_server (login_connection self lu lp)) = None ->
        bind_reply d (login_connection self lu lp) = None ->
        exists tail,
          snd (get_users_info_ad d self lu lp users attributes t)
          = t ++ [EvBind (login_connection self lu lp) None;
                  EvPagedSearch (login_connection self lu lp) base
                    "(objectClass=person)" attributes 500%Z]
              ++ tail
          /\ (tail = [] \/ tail = [EvUnbind (login_connection self lu lp)]))
  /\ (forall d self lu lp users attributes t base ids,
        ids <> [] ->
        users = UsersList ids \/ users = UsersTuple ids ->
        get_search_base self = Ok base ->
        server_reply d (conn_server (login_connection self lu lp)) = None ->
        bind_reply d (login_connection self lu lp) = None ->
        exists tail,
          snd (get_users_info_ad d self lu lp users attributes t)
          = t ++ [EvBind (login_connection self lu lp) None;
                  EvPagedSearch (login_connection self lu lp) base
                    ("(&(objectClass=person)(|"
                     +:+ Py.concat
                           (map (fun id => "(sAMAccountName=" +:+ Py.strip id
                                           +:+ ")") ids)
                     +:+ "))")
                    attributes 500%Z]
              ++ tail
          /\ (tail = [] \/ tail = [EvUnbind (login_connection self lu lp)])).
Proof.
  split_and!; try reflexivity.
  - intros [|id ids] Hne; [contradiction |]. split; reflexivity.
  - intros d self lu lp users attributes c base f a n H.
    now apply search_event_origin in H.
  - intros d self lu lp users attributes t base Hu Hb Hsrv Hbind.
    apply bound_run_searches; try assumption.
    now destruct Hu as [-> | [-> | ->]].
  - intros d self lu lp users attributes t base [|id ids] Hne Hu Hb Hsrv Hbind;
      [contradiction |].
    apply bound_run_searches; try assumption.
    now destruct Hu as [-> | ->].
Qed.

Lemma search_filter_construction_witness :
  exists tail,
    snd (get_users_info_ad open_directory
           (corp_settings (Some "admin@corp.example.com") (Some "secret"))
           None None (UsersTuple [" bob "; "carol"]) "*" [])
    = [] ++ [EvBind (mkConnection (mkServer "dc1.corp.example.com" 389 false)
                       (Some "admin@corp.example.com") (Some "secret")) None;
             EvPagedSearch
               (mkConnection (mkServer "dc1.corp.example.com" 389 false)
                  (Some "admin@corp.example.com") (Some "secret"))
               "dc=corp,dc=example,dc=com"
               "(&(objectClass=person)(|(sAMAccountName=bob)(sAMAccountName=carol)))"
               "*" 500%Z]
          ++ tail
    /\ (tail = []
        \/ tail = [EvUnbind
                     (mkConnection (mkServer "dc1.corp.example.com" 389 false)
                        (Some "admin@corp.example.com") (Some "secret"))]).
Proof.
  exact (proj2 (proj2 (proj2 (proj2 (proj2 (proj2 (proj2
           search_filter_construction))))))
           open_directory
           (corp_settings (Some "admin@corp.example.com") (Some "secret"))
           None None (UsersTuple [" bob "; "carol"]) "*" []
           "dc=corp,dc=example,dc=com" [" bob "; "carol"]
           ltac:(discriminate) (or_intror eq_refl) eq_refl eq_refl eq_refl).
Defined.

(** ** Releasing the connection *)

(** A run that returns has bound once and unbound once. *)
Lemma unbind_once_when_search_completes d self lu lp users attributes results :
  fst (get_users_info_ad d self lu lp users attributes []) = Ok results ->
  count is_bound (snd (get_users_info_ad d self lu lp users attributes [])) = 1%nat
  /\ count is_unbind (snd (get_users_info_ad d self lu lp users attributes []))
     = 1%nat.
Proof.
  rewrite get_users_info_ad_run.
  destruct (build_search_filter users); [| discriminate].
  destruct (get_search_base self); [| discriminate].
  cbv zeta. destruct (server_reply d _); [discriminate |].
  destruct (bind_reply d _); [discriminate |].
  destruct (fst (collect_entries _ [] [])); [| discriminate].
  intros _. split; reflexivity.
Qed.

(** A run whose search raises after a successful bind ends with the
    session still bound: the events are the bind and the search, no unbind. *)
Lemma no_unbind_when_search_raises d self lu lp users attributes f base es e :
  build_search_filter users = Ok f ->
  get_search_base self = Ok base ->
  server_reply d (conn_server (login_connection self lu lp)) = None ->
  bind_reply d (login_connection self lu lp) = None ->
  search_reply d (login_connection self lu lp) base f attributes
  = yield_all es (SRaise e) ->
  get_users_info_ad d self lu lp users attributes []
  = (Err e, [EvBind (login_connection self lu lp) None;
             EvPagedSearch (login_connection self lu lp) base f attributes 500%Z]).
Proof.
  intros Hf Hb Hsrv Hbind Hs.
  rewrite get_users_info_ad_run, Hf, Hb. cbv zeta.
  now rewrite Hsrv, Hbind, Hs, collect_entries_yield_all.
Qed.

(** C4 does not hold of the code. On a server that binds the session and
    drops the socket after the first entry, [get_users_info_ad] raises the
    socket error with one successful bind and no unbind on the trace. *)
Theorem search_failure_leaves_connection_bound :
  fst (get_users_info_ad failing_directory
         (corp_settings (Some "admin@corp.example.com") (Some "secret"))
         None None UsersNone "*" [])
  = Err (LDAPSocketReceiveError "socket closed")
  /\ count is_bound
       (snd (get_users_info_ad failing_directory
               (corp_settings (Some "admin@corp.example.com") (Some "secret"))
               None None UsersNone "*" [])) = 1%nat
  /\ count is_unbind
       (snd (get_users_info_ad failing_directory
               (corp_settings (Some "admin@corp.example.com") (Some "secret"))
               None None UsersNone "*" [])) = 0%nat.
Proof.
  rewrite (no_unbind_when_search_raises failing_directory _ None None UsersNone "*"
             "(objectClass=person)" "dc=corp,dc=example,dc=com" [bob]
             (LDAPSocketReceiveError "socket closed"));
    repeat split; reflexivity.
Qed.

(** ** Opening the connection *)

(** C5, as stated, fails: the login [plainuser] resolves to no principal,
    yet [get_connection] goes on to bind, without a user, and on a server
    that accepts such a bind it returns the session instead of failing. *)
Lemma unresolved_login_is_bound :
  get_user_principal_name
    (fst (effective_login (corp_settings None None)
            (Some "plainuser") (Some "pw"))) = None
  /\ fst (get_connection open_directory (corp_settings None None)
            (Some "plainuser") (Some "pw") [])
     = Ok (Some (mkConnection (mkServer "dc1.corp.example.com" 389 false)
                   None (Some "pw")))
  /\ existsb is_anonymous_bind
       (snd (get_connection open_directory (corp_settings None None)
               (Some "plainuser") (Some "pw") [])) = true.
Proof. repeat split. Qed.

(** C5, amended. When the effective login resolves to no principal,
    [get_connection] checks nothing itself: once the server object is built
    it makes one bind attempt without a user, with the effective password,
    and fails exactly when the library raises on that attempt, with the
    library's exception; otherwise it returns the bound session. *)
Theorem get_connection_unresolved_login d self lu lp t :
  get_user_principal_name (fst (effective_login self lu lp)) = None ->
  server_reply d (mkServer (domain self) (port self) (ssl self)) = None ->
  let c := mkConnection (mkServer (domain self) (port self) (ssl self))
             None (snd (effective_login self lu lp)) in
  get_connection d self lu lp t
  = (match bind_reply d c with
     | None => Ok (Some c)
     | Some e => Err e
     end, t ++ [EvBind c (bind_reply d c)])
  /\ is_anonymous_bind (EvBind c (bind_reply d c)) = true.
Proof.
  intros H Hsrv. rewrite get_connection_run. unfold login_connection.
  rewrite H. simpl. rewrite Hsrv. split; reflexivity.
Qed.

Lemma get_connection_unresolved_login_witness :
  get_connection open_directory (corp_settings (Some "admin") (Some "secret"))
    None None []
  = (Ok (Some (mkConnection (mkServer "dc1.corp.example.com" 389 false)
                 None (Some "secret"))),
     [EvBind (mkConnection (mkServer "dc1.corp.example.com" 389 false)
                None (Some "secret")) None]).
Proof.
  exact (proj1 (get_connection_unresolved_login open_directory
                  (corp_settings (Some "admin") (Some "secret"))
                  None None [] eq_refl eq_refl)).
Defined.




(** ** Searching *)

(** The guard [if not users] comes first: whatever is falsy, a scalar
    too, is handled as [None] is. *)
Lemma falsy_users_as_absent d self lu lp users attributes t :
  users_truthy users = false ->
  get_users_info_ad d self lu lp users attributes t
  = get_users_info_ad d self lu lp UsersNone attributes t.
Proof.
  intros H. rewrite !get_users_info_ad_run.
  unfold build_search_filter. now rewrite H.
Qed.

(** C6 does not hold of the code. The scalars [0] and [''] are present and
    are neither a list nor a tuple, and the message of the exception says that
    users must be a list, a tuple or [None]; yet with them the call does not
    raise: it binds, runs the unfiltered search and returns. The scalar
    ['bob'] on the same call is refused before anything reaches the
    directory. *)
Theorem falsy_scalar_users_searches :
  get_users_info_ad open_directory
    (corp_settings (Some "admin@corp.example.com") (Some "secret"))
    None None (UsersInt 0) "*" []
  = (Ok [bob; carol],
     let c := mkConnection (mkServer "dc1.corp.example.com" 389 false)
                (Some "admin@corp.example.com") (Some "secret") in
     [EvBind c None;
      EvPagedSearch c "dc=corp,dc=example,dc=com" "(objectClass=person)" "*" 500%Z;
      EvUnbind c])
  /\ get_users_info_ad open_directory
       (corp_settings (Some "admin@corp.example.com") (Some "secret"))
       None None (UsersStr "") "*" []
     = (Ok [bob; carol],
        let c := mkConnection (mkServer "dc1.corp.example.com" 389 false)
                   (Some "admin@corp.example.com") (Some "secret") in
        [EvBind c None;
         EvPagedSearch c "dc=corp,dc=example,dc=com" "(objectClass=person)" "*"
           500%Z;
         EvUnbind c])
  /\ get_users_info_ad open_directory
       (corp_settings (Some "admin@corp.example.com") (Some "secret"))
       None None (UsersStr "bob") "*" []
     = (Err (LDAPException "Users must be list/tuple of users or None"), []).
Proof.
  split_and!.
  - rewrite (falsy_users_as_absent _ _ _ _ (UsersInt 0)) by reflexivity.
    rewrite get_users_info_ad_run. reflexivity.
  - rewrite (falsy_users_as_absent _ _ _ _ (UsersStr "")) by reflexivity.
    rewrite get_users_info_ad_run. reflexivity.
  - rewrite get_users_info_ad_run. reflexivity.
Qed.

(** X19. When [users] is truthy (not [None], not zero, not empty) and is
    neither a list nor a tuple, [get_users_info_ad] raises [LDAPException]
    with the message below and leaves the trace as it was: no bind, no search,
    no other call. *)
Theorem scalar_users_rejected d self lu lp users attributes t :
  users_truthy users = true ->
  users_items users = None ->
  get_users_info_ad d self lu lp users attributes t
  = (Err (LDAPException "Users must be list/tuple of users or None"), t).
Proof.
  intros Ht Hi. rewrite get_users_info_ad_run.
  unfold build_search_filter. now rewrite Ht, Hi.
Qed.

Lemma scalar_users_rejected_witness :
  get_users_info_ad open_directory
    (corp_settings (Some "admin@corp.example.com") (Some "secret"))
    None None (UsersStr "bob") "*" []
  = (Err (LDAPException "Users must be list/tuple of users or None"), []).
Proof.
  exact (scalar_users_rejected open_directory
           (corp_settings (Some "admin@corp.example.com") (Some "secret"))
           None None (UsersStr "bob") "*" [] eq_refl eq_refl).
Defined.

Lemma not_referral_spec (en : entry) :
  not_referral en = true <-> en !! "type" <> Some "searchResRef".
Proof. unfold not_referral. apply bool_decide_eq_true. Qed.

(** C8. When the filter and the search base are built, the bind succeeds and
    the directory delivers the entries [es] and ends, [get_users_info_ad]
    returns exactly the entries of [es] whose ["type"] is not
    ["searchResRef"], in the order of [es]: no referral is in the result and
    no other entry is missing from it. *)
Theorem referrals_filtered d self lu lp users attributes t f base es :
  build_search_filter users = Ok f ->
  get_search_base self = Ok base ->
  server_reply d (conn_server (login_connection self lu lp)) = None ->
  bind_reply d (login_connection self lu lp) = None ->
  search_reply d (login_connection self lu lp) base f attributes
  = yield_all es SEnd ->
  fst (get_users_info_ad d self lu lp users attributes t)
  = Ok (List.filter not_referral es)
  /\ (forall en, In en (List.filter not_referral es) <->
                 In en es /\ en !! "type" <> Some "searchResRef").
Proof.
  intros Hf Hb Hsrv Hbind Hs. split.
  - rewrite get_users_info_ad_run, Hf, Hb. cbv zeta.
    now rewrite Hsrv, Hbind, Hs, collect_entries_yield_all.
  - intros en. now rewrite filter_In, not_referral_spec.
Qed.

Lemma referrals_filtered_witness :
  fst (get_users_info_ad open_directory
         (corp_settings (Some "admin@corp.example.com") (Some "secret"))
         None None (UsersList ["bob"; "carol"]) "*" [])
  = Ok [bob; carol].
Proof.
  exact (proj1 (referrals_filtered open_directory
                  (corp_settings (Some "admin@corp.example.com") (Some "secret"))
                  None None (UsersList ["bob"; "carol"]) "*" []
                  "(&(objectClass=person)(|(sAMAccountName=bob)(sAMAccountName=carol)))"
                  "dc=corp,dc=example,dc=com" [bob; referral; carol]
                  eq_refl eq_refl eq_refl eq_refl eq_refl)).
Defined.

(** C10. The search base of [get_users_info_ad] is the one derived from the
    stored username, whatever the override login is; so when the stored
    username is absent or holds neither ['@'] nor a backslash the call fails
    with the trace unchanged, before any bind or search, also with a valid
    override username and password. *)
Theorem search_base_from_stored_username d self lu lp users attributes :
  (forall c base f a n,
      In (EvPagedSearch c base f a n)
         (snd (get_users_info_ad d self lu lp users attributes [])) ->
      get_search_base self = Ok base)
  /\ (username self = None
      \/ (exists s, username self = Some s
                    /\ Py.contains "@"%char s = false
                    /\ Py.contains "\"%char s = false) ->
      forall t, exists e,
        get_users_info_ad d self lu lp users attributes t = (Err e, t)).
Proof.
  split.
  - intros c base f a n H. now apply search_event_origin in H.
  - intros H t.
    assert (get_user_principal_name (username self) = None) as Hp.
    { destruct H as [-> | (s & -> & H1 & H2)]; [reflexivity |].
      simpl. now rewrite H1, H2. }
    rewrite get_users_info_ad_run.
    destruct (build_search_filter users) as [f|e]; [| eauto].
    unfold get_search_base. rewrite Hp. eauto.
Qed.

Lemma search_base_from_stored_username_witness :
  exists e,
    get_users_info_ad open_directory (corp_settings (Some "admin") (Some "secret"))
      (Some "bob@corp.example.com") (Some "pw") UsersNone "*" []
    = (Err e, []).
Proof.
  apply (proj2 (search_base_from_stored_username open_directory
                  (corp_settings (Some "admin") (Some "secret"))
                  (Some "bob@corp.example.com") (Some "pw") UsersNone "*")).
  right. exists "admin". repeat split.
Defined.

(** * Further properties of the code *)

(** ** More facts about the string primitives *)

Lemma strip_idempotent (s : string) : Py.strip (Py.strip s) = Py.strip s.
Proof.
  destruct (strip_spec s) as (_ & Hl & Hr).
  unfold Py.strip at 1. unfold Py.strip_chars.
  rewrite Hl. now apply rstrip_fixed.
Qed.

(** A character that is not in the string is in none of its parts. *)
Lemma split_parts_other (c sep : ascii) (s : string) :
  Py.contains c s = false ->
  Forall (fun p => Py.contains c p = false) (Py.split sep s).
Proof.
  induction s as [|x s IH]; simpl.
  - repeat constructor.
  - destruct (Ascii.eqb x c) eqn:E; [discriminate |]. intros H.
    specialize (IH H).
    destruct (Ascii.eqb x sep).
    + constructor; [reflexivity | exact IH].
    + destruct (Py.split sep s) as [|p ps].
      * repeat constructor. simpl. now rewrite E.
      * inversion IH; subst. constructor; [simpl; now rewrite E | assumption].
Qed.

Lemma contains_join_free (c sep : ascii) (l : list string) :
  Ascii.eqb sep c = false ->
  Forall (fun p => Py.contains c p = false) l ->
  Py.contains c (Py.join (String sep "") l) = false.
Proof.
  intros Hsep. induction l as [|p ps IH]; [reflexivity |]. intros F.
  inversion F as [|? ? Hp Hps]; subst.
  destruct ps as [|q qs]; [exact Hp |].
  change (Py.join (String sep "") (p :: q :: qs))
    with (p +:+ String sep (Py.join (String sep "") (q :: qs))).
  rewrite contains_app, Hp. simpl. rewrite Hsep. now apply IH.
Qed.

Lemma rev_not_nil {A} (l : list A) : l <> [] -> rev l <> [].
Proof.
  intros H E. apply (f_equal (@length A)) in E. rewrite length_rev in E.
  destruct l; [contradiction | discriminate].
Qed.

(** ** Login normalisation, continued *)

(** X1. Resolving a login twice is resolving it once: a resolved principal
    holds an ['@'] and is therefore returned unchanged. *)
Theorem get_user_principal_name_idempotent (u : option string) :
  get_user_principal_name (get_user_principal_name u)
  = get_user_principal_name u.
Proof.
  destruct (get_user_principal_name u) as [p|] eqn:E; [| reflexivity].
  apply principal_has_at in E. simpl. now rewrite E.
Qed.

(** X2. The rewriting of a backslash login loses nothing: the principal
    holds no backslash, and cutting it at every ['@'], reversing the parts and
    joining them with backslashes gives the login back. *)
Theorem backslash_login_round_trip (s : string) :
  Py.contains "@"%char s = false ->
  Py.contains "\"%char s = true ->
  exists p,
    get_user_principal_name (Some s) = Some p
    /\ Py.contains "\"%char p = false
    /\ Py.join "\" (rev (Py.split "@"%char p)) = s.
Proof.
  intros Hat Hbs. simpl. rewrite Hat, Hbs. eexists. split; [reflexivity |].
  pose proof (split_parts_free "\"%char s) as Ffree.
  pose proof (split_parts_other "@"%char "\"%char s Hat) as Fat.
  split.
  - apply contains_join_free; [reflexivity |]. now apply Forall_rev.
  - rewrite (split_join "@"%char).
    + rewrite rev_involutive. apply join_split.
    + apply rev_not_nil, split_not_nil.
    + now apply Forall_rev.
Qed.

Lemma backslash_login_round_trip_witness :
  exists p,
    get_user_principal_name (Some "forest\corp\alice") = Some p
    /\ Py.contains "\"%char p = false
    /\ Py.join "\" (rev (Py.split "@"%char p)) = "forest\corp\alice".
Proof.
  exact (backslash_login_round_trip "forest\corp\alice" eq_refl eq_refl).
Defined.

(** ** Search base, continued *)

Lemma principal_none_iff (u : option string) :
  get_user_principal_name u = None <->
  u = None
  \/ exists s, u = Some s /\ Py.contains "@"%char s = false
               /\ Py.contains "\"%char s = false.
Proof.
  destruct u as [s|]; simpl.
  - destruct (Py.contains "@"%char s) eqn:E1;
      [| destruct (Py.contains "\"%char s) eqn:E2].
    + split; [discriminate | intros [[=] | (s' & [= <-] & H & _)]; congruence].
    + split; [discriminate | intros [[=] | (s' & [= <-] & _ & H)]; congruence].
    + split; [right; eauto | reflexivity].
  - split; [now left | reflexivity].
Qed.

(** The base comes from the second of the parts of the principal cut at
    every ['@']. *)
Lemma get_search_base_second_part (self : Settings) (p a dom : string)
    (rest : list string) :
  get_user_principal_name (username self) = Some p ->
  Py.split "@"%char p = a :: dom :: rest ->
  get_search_base self = Ok (Py.rstrip is_comma (dc_joined dom)).
Proof.
  intros Hp Hs. unfold get_search_base. rewrite Hp, Hs.
  change ((a :: dom :: rest) !! 1%nat) with (Some dom). cbv beta iota.
  f_equal. apply strip_concat_dc.
Qed.

Lemma get_search_base_ok_form (self : Settings) (base : string) :
  get_search_base self = Ok base ->
  exists dom, base = Py.rstrip is_comma (dc_joined dom).
Proof.
  unfold get_search_base.
  destruct (get_user_principal_name (username self)) as [p|]; [| discriminate].
  destruct (Py.split "@"%char p !! 1%nat) as [dom|]; [| discriminate].
  intros [= <-]. exists dom. apply strip_concat_dc.
Qed.

Lemma rstrip_kept_head drop x s :
  drop x = false -> exists r, Py.rstrip drop (String x s) = String x r.
Proof.
  intros H. simpl. destruct (Py.rstrip drop s); [rewrite H |]; eauto.
Qed.

Lemma rstrip_cons_kept drop x s y r :
  Py.rstrip drop s = String y r ->
  Py.rstrip drop (String x s) = String x (String y r).
Proof. intros H. simpl. now rewrite H. Qed.

(** X3. [get_search_base] fails exactly when the stored username is absent
    or holds neither ['@'] nor a backslash, and then with the
    [AttributeError] of calling [split] on [None]; the index [1] is never out
    of range. *)
Theorem get_search_base_fails_iff (self : Settings) (e : exn) :
  get_search_base self = Err e <->
  e = AttributeError "'NoneType' object has no attribute 'split'"
  /\ (username self = None
      \/ exists s, username self = Some s /\ Py.contains "@"%char s = false
                   /\ Py.contains "\"%char s = false).
Proof.
  rewrite <- principal_none_iff. split.
  - destruct (get_user_principal_name (username self)) as [p|] eqn:E.
    + destruct (get_search_base_defined self p E) as [base Hb].
      rewrite Hb. discriminate.
    + unfold get_search_base. rewrite E. now intros [= <-].
  - intros [-> H]. unfold get_search_base. now rewrite H.
Qed.

Lemma get_search_base_fails_iff_witness :
  get_search_base (corp_settings (Some "plainuser") (Some "pw"))
  = Err (AttributeError "'NoneType' object has no attribute 'split'").
Proof.
  apply (proj2 (get_search_base_fails_iff
                  (corp_settings (Some "plainuser") (Some "pw")) _)).
  split; [reflexivity |]. right. exists "plainuser". repeat split.
Defined.

(** X4. For a backslash login [p0\..\d\u] without ['@'], the search base
    is made of the labels of [d], the part before the last backslash: with
    one backslash, [domain\user], it is the base of [domain]. *)
Theorem search_base_of_backslash_login (self : Settings)
    (init : list string) (d u : string) :
  username self = Some (Py.join "\" (init ++ [d; u])) ->
  Forall (fun p => Py.contains "@"%char p = false
                   /\ Py.contains "\"%char p = false) (init ++ [d; u]) ->
  get_search_base self = Ok (Py.rstrip is_comma (dc_joined d)).
Proof.
  intros Hu F.
  assert (Forall (fun p => Py.contains "@"%char p = false) (init ++ [d; u])) as Fat.
  { eapply Forall_impl; [exact F | now intros p [H _]]. }
  assert (Forall (fun p => Py.contains "\"%char p = false) (init ++ [d; u])) as Fbs.
  { eapply Forall_impl; [exact F | now intros p [_ H]]. }
  assert (init ++ [d; u] <> []) as Hne by (destruct init; discriminate).
  apply (get_search_base_second_part self
           (Py.join "@" (rev (init ++ [d; u]))) u d (rev init)).
  - rewrite Hu. simpl.
    rewrite (contains_join_free "@"%char "\"%char) by (reflexivity || assumption).
    rewrite (contains_join_two "\"%char)
      by (rewrite length_app; simpl; lia).
    now rewrite split_join.
  - rewrite split_join.
    + now rewrite rev_app_distr.
    + now apply rev_not_nil.
    + now apply Forall_rev.
Qed.

Lemma search_base_of_backslash_login_witness :
  get_search_base
    (corp_settings (Some "forest\corp.example.com\alice") (Some "pw"))
  = Ok "dc=corp,dc=example,dc=com".
Proof.
  apply (search_base_of_backslash_login
           (corp_settings (Some "forest\corp.example.com\alice") (Some "pw"))
           ["forest"] "corp.example.com" "alice" eq_refl).
  repeat constructor.
Defined.

(** X5. With more than one ['@'] in the username only the text between
    the first and the second ['@'] makes the search base; what follows the
    second ['@'] is ignored. *)
Theorem search_base_ignores_after_second_at (self : Settings) (a b c : string) :
  username self = Some (a +:+ "@" +:+ b +:+ "@" +:+ c) ->
  Py.contains "@"%char a = false ->
  Py.contains "@"%char b = false ->
  get_search_base self = Ok (Py.rstrip is_comma (dc_joined b)).
Proof.
  intros Hu Ha Hb.
  apply (get_search_base_second_part self (a +:+ "@" +:+ b +:+ "@" +:+ c)
           a b (Py.split "@"%char c)).
  - rewrite Hu. simpl.
    change (a +:+ "@" +:+ b +:+ "@" +:+ c)
      with (a +:+ String "@" (b +:+ "@" +:+ c)).
    rewrite contains_app. simpl. now rewrite orb_true_r.
  - change (a +:+ "@" +:+ b +:+ "@" +:+ c)
      with (a +:+ String "@" (b +:+ String "@" c)).
    now rewrite !split_app.
Qed.

Lemma search_base_ignores_after_second_at_witness :
  get_search_base
    (corp_settings (Some "alice@corp.example.com@other.example.org") None)
  = Ok "dc=corp,dc=example,dc=com".
Proof.
  exact (search_base_ignores_after_second_at
           (corp_settings (Some "alice@corp.example.com@other.example.org") None)
           "alice" "corp.example.com" "other.example.org"
           eq_refl eq_refl eq_refl).
Defined.

(** X6. A search base, whenever one is returned, starts with ["dc="] and
    does not end in a comma. *)
Theorem search_base_shape (self : Settings) (base : string) :
  get_search_base self = Ok base ->
  (exists rest, base = "dc=" +:+ rest) /\ ends_in is_comma base = false.
Proof.
  intros H. apply get_search_base_ok_form in H as [dom ->]. split.
  - rewrite dc_joined_dots.
    destruct (rstrip_kept_head is_comma "="%char (dots_to_dc dom) eq_refl)
      as [r Hr].
    exists r.
    change ("dc=" +:+ dots_to_dc dom)
      with (String "d" (String "c" (String "=" (dots_to_dc dom)))).
    now rewrite (rstrip_cons_kept _ _ _ "c"%char (String "=" r))
      by now apply rstrip_cons_kept.
  - apply rstrip_no_trailing.
Qed.

Lemma search_base_shape_witness :
  (exists rest, "dc=corp" = "dc=" +:+ rest) /\ ends_in is_comma "dc=corp" = false.
Proof.
  exact (search_base_shape (corp_settings (Some "alice@corp,,") None) "dc=corp"
           eq_refl).
Defined.

(** ** Saving the settings, continued *)

(** X7. Saving twice stores what saving once stores. *)
Theorem save_idempotent (self : Settings) : save (save self) = save self.
Proof.
  rewrite (save_eq (save self)), (save_eq self).
  destruct (username self) as [u|]; simpl.
  - destruct (Py.strip u) as [|x r] eqn:E; simpl.
    + now rewrite strip_idempotent.
    + rewrite <- E, !strip_idempotent, E. reflexivity.
  - now rewrite strip_idempotent.
Qed.

(** X8. What [save] stores is trimmed: a stored username is never the
    empty string and neither starts nor ends with whitespace, and the stored
    domain neither starts nor ends with whitespace. *)
Theorem save_stores_trimmed (self : Settings) :
  (forall u, username (save self) = Some u ->
             u <> "" /\ Py.lstrip Py.isspace u = u
             /\ ends_in Py.isspace u = false)
  /\ Py.lstrip Py.isspace (domain (save self)) = domain (save self)
  /\ ends_in Py.isspace (domain (save self)) = false.
Proof.
  rewrite save_eq. split_and!.
  - intros u. destruct (username self) as [u0|]; simpl; [| discriminate].
    destruct (Py.strip u0) as [|x r] eqn:E; simpl; [discriminate |].
    intros [= <-]. rewrite <- E.
    destruct (strip_spec u0) as (_ & Hl & Hr).
    split_and!; [rewrite E; discriminate | exact Hl | exact Hr].
  - destruct (strip_spec (domain self)) as (_ & Hl & _).
    now destruct (Py.truthy (Py.strip <$> username self)).
  - destruct (strip_spec (domain self)) as (_ & _ & Hr).
    now destruct (Py.truthy (Py.strip <$> username self)).
Qed.

Lemma save_stores_trimmed_witness :
  "admin@corp.example.com" <> ""
  /\ Py.lstrip Py.isspace "admin@corp.example.com" = "admin@corp.example.com"
  /\ ends_in Py.isspace "admin@corp.example.com" = false.
Proof.
  exact (proj1 (save_stores_trimmed
                  (corp_settings (Some "  admin@corp.example.com ") (Some "pw")))
           "admin@corp.example.com" eq_refl).
Defined.

(** ** The settings form *)

Lemma clean_some (cleaned_data : gmap string (option string)) (u : string) :
  cleaned_data !! "username" = Some (Some u) ->
  clean cleaned_data =
  if startswith separators (Py.strip u) || endswith separators (Py.strip u)
  then ValidationError "Username should not starts or ends with @ or \."
  else if negb (existsb (fun separator => Py.contains separator (Py.strip u))
                        separators)
  then ValidationError "Username should contain @ or \."
  else FormValid.
Proof. intros H. unfold clean. rewrite H. now destruct u. Qed.

Lemma clean_valid_inv (cleaned_data : gmap string (option string)) :
  clean cleaned_data = FormValid ->
  exists u,
    cleaned_data !! "username" = Some (Some u)
    /\ startswith separators (Py.strip u) = false
    /\ endswith separators (Py.strip u) = false
    /\ get_user_principal_name (Some (Py.strip u)) <> None.
Proof.
  destruct (cleaned_data !! "username") as [[u|]|] eqn:E.
  - rewrite (clean_some _ u E). intros H. exists u.
    destruct (startswith separators (Py.strip u)); [discriminate |].
    destruct (endswith separators (Py.strip u)); [discriminate |].
    simpl in H. split_and!; try reflexivity.
    cbn [get_user_principal_name].
    destruct (Py.contains "@"%char (Py.strip u)); [discriminate |].
    destruct (Py.contains "\"%char (Py.strip u)); discriminate.
  - unfold clean. rewrite E. discriminate.
  - unfold clean. rewrite E. discriminate.
Qed.

Lemma endswith_snoc (l : list ascii) (a : string) (x : ascii) :
  endswith l (a +:+ String x "") = existsb (Ascii.eqb x) l.
Proof.
  induction a as [|y a IH]; [reflexivity |].
  change (endswith l (String y a +:+ String x ""))
    with (endswith l (String y (a +:+ String x ""))).
  destruct a as [|z a]; [reflexivity |]. exact IH.
Qed.

(** X9. The form refuses a username that is missing from the cleaned
    data, [None], empty or made of whitespace only, with the message that a
    separator is required: a blank username does not pass [clean]. *)
Theorem clean_rejects_blank (cleaned_data : gmap string (option string)) :
  cleaned_data !! "username" = None
  \/ cleaned_data !! "username" = Some None
  \/ (exists u, cleaned_data !! "username" = Some (Some u) /\ Py.strip u = "") ->
  clean cleaned_data = ValidationError "Username should contain @ or \.".
Proof.
  intros [H | [H | (u & H & E)]].
  - unfold clean. now rewrite H.
  - unfold clean. now rewrite H.
  - rewrite (clean_some _ u H), E. reflexivity.
Qed.

Lemma clean_rejects_blank_witness :
  clean {[ "domain" := Some "dc1.corp.example.com"; "username" := Some "   " ]}
  = ValidationError "Username should contain @ or \.".
Proof.
  apply clean_rejects_blank. right. right. exists "   ". split; reflexivity.
Defined.

(** X10. A username that passes [clean] gives usable settings: once saved
    it is stored trimmed, and [get_search_base] returns a base for it instead
    of raising. *)
Theorem accepted_username_has_search_base
    (cleaned_data : gmap string (option string)) (self : Settings) :
  clean cleaned_data = FormValid ->
  cleaned_data !! "username" = Some (username self) ->
  exists u base,
    username self = Some u
    /\ username (save self) = Some (Py.strip u)
    /\ get_search_base (save self) = Ok base.
Proof.
  intros Hc Hu.
  apply clean_valid_inv in Hc as (u & Hcd & _ & _ & Hp).
  rewrite Hu in Hcd. injection Hcd as Hself.
  assert (username (save self) = Some (Py.strip u)) as Hs.
  { rewrite save_eq, Hself. simpl.
    destruct (Py.strip u) eqn:E; [now destruct Hp | reflexivity]. }
  destruct (get_user_principal_name (Some (Py.strip u))) as [p|] eqn:Ep;
    [| contradiction].
  destruct (get_search_base_defined (save self) p) as [base Hb];
    [now rewrite Hs |].
  now exists u, base.
Qed.

Lemma accepted_username_has_search_base_witness :
  exists u base,
    username (corp_settings (Some " corp.example.com\alice ") (Some "pw")) = Some u
    /\ username (save (corp_settings (Some " corp.example.com\alice ") (Some "pw")))
       = Some (Py.strip u)
    /\ get_search_base
         (save (corp_settings (Some " corp.example.com\alice ") (Some "pw")))
       = Ok base.
Proof.
  exact (accepted_username_has_search_base
           {[ "username" := Some " corp.example.com\alice " ]}
           (corp_settings (Some " corp.example.com\alice ") (Some "pw"))
           eq_refl eq_refl).
Defined.

(** X11. In a username that passes [clean], trimmed, no separator is the
    first or the last character: whatever separator it is cut at, the text
    before and the text after are not empty. *)
Theorem accepted_username_parts_nonempty
    (cleaned_data : gmap string (option string)) (u a b : string) (sep : ascii) :
  clean cleaned_data = FormValid ->
  cleaned_data !! "username" = Some (Some u) ->
  In sep separators ->
  Py.strip u = a +:+ String sep b ->
  a <> "" /\ b <> "".
Proof.
  intros Hc Hu Hsep Hcut.
  apply clean_valid_inv in Hc as (u' & Hcd & Hstart & Hend & _).
  rewrite Hu in Hcd. injection Hcd as <-. rewrite Hcut in Hstart, Hend.
  assert (existsb (Ascii.eqb sep) separators = true) as Hex.
  { destruct Hsep as [<- | [<- | []]]; reflexivity. }
  split; intros ->.
  - change (startswith separators ("" +:+ String sep b))
      with (existsb (Ascii.eqb sep) separators) in Hstart.
    congruence.
  - rewrite endswith_snoc in Hend. congruence.
Qed.

Lemma accepted_username_parts_nonempty_witness :
  "alice" <> "" /\ "corp.example.com" <> "".
Proof.
  exact (accepted_username_parts_nonempty
           {[ "username" := Some "alice@corp.example.com" ]}
           "alice@corp.example.com" "alice" "corp.example.com" "@"%char
           eq_refl eq_refl ltac:(now left) eq_refl).
Defined.

(** ** Opening the connection, continued *)

(** X12. [get_connection] never returns [None]: what it returns is a
    session to the server of the settings (domain, port and SSL flag, whatever
    the login), bound by the one bind attempt it made. *)
Theorem get_connection_returns_bound_session d self lu lp t o :
  fst (get_connection d self lu lp t) = Ok o ->
  exists c,
    o = Some c
    /\ conn_server c = mkServer (domain self) (port self) (ssl self)
    /\ bind_reply d c = None
    /\ snd (get_connection d self lu lp t) = t ++ [EvBind c None].
Proof.
  rewrite get_connection_run. cbv zeta.
  destruct (server_reply d _); [discriminate |]. simpl.
  destruct (bind_reply d (login_connection self lu lp)) eqn:B; [discriminate |].
  intros [= <-]. exists (login_connection self lu lp). now rewrite B.
Qed.

Lemma get_connection_returns_bound_session_witness :
  exists c,
    Some (mkConnection (mkServer "dc1.corp.example.com" 389 false)
            (Some "bob@corp.example.com") (Some "pw")) = Some c
    /\ conn_server c = mkServer "dc1.corp.example.com" 389 false
    /\ bind_reply open_directory c = None
    /\ snd (get_connection open_directory
              (corp_settings (Some "admin@corp.example.com") (Some "secret"))
              (Some "bob@corp.example.com") (Some "pw") [])
       = [] ++ [EvBind c None].
Proof.
  exact (get_connection_returns_bound_session open_directory
           (corp_settings (Some "admin@corp.example.com") (Some "secret"))
           (Some "bob@corp.example.com") (Some "pw") [] _ eq_refl).
Defined.

(** X13. A failure of [get_connection] is the exception of the library,
    unchanged by the [except] clause: either the one [ldap3.Server] raised,
    and then nothing reached the directory, or the one the bind raised, and
    then the trace holds that bind attempt and nothing else. *)
Theorem get_connection_error_passes_through d self lu lp t e :
  fst (get_connection d self lu lp t) = Err e ->
  (server_reply d (mkServer (domain self) (port self) (ssl self)) = Some e
   /\ snd (get_connection d self lu lp t) = t)
  \/ (server_reply d (mkServer (domain self) (port self) (ssl self)) = None
      /\ bind_reply d (login_connection self lu lp) = Some e
      /\ snd (get_connection d self lu lp t)
         = t ++ [EvBind (login_connection self lu lp) (Some e)]).
Proof.
  rewrite get_connection_run. cbv zeta.
  change (conn_server (login_connection self lu lp))
    with (mkServer (domain self) (port self) (ssl self)).
  destruct (server_reply d _) as [e'|].
  - intros [= ->]. now left.
  - simpl. destruct (bind_reply d (login_connection self lu lp)) as [e'|];
      [| discriminate].
    intros [= ->]. now right.
Qed.

Lemma get_connection_error_passes_through_witness :
  let d := mkDirectory (fun _ => None)
             (fun _ => Some (LDAPBindError "invalidCredentials"))
             (fun _ _ _ _ => SEnd) in
  let self := corp_settings (Some "admin@corp.example.com") (Some "wrong") in
  (server_reply d (mkServer (domain self) (port self) (ssl self))
   = Some (LDAPBindError "invalidCredentials")
   /\ snd (get_connection d self None None []) = [])
  \/ (server_reply d (mkServer (domain self) (port self) (ssl self)) = None
      /\ bind_reply d (login_connection self None None)
         = Some (LDAPBindError "invalidCredentials")
      /\ snd (get_connection d self None None [])
         = [] ++ [EvBind (login_connection self None None)
                    (Some (LDAPBindError "invalidCredentials"))]).
Proof.
  exact (get_connection_error_passes_through
           (mkDirectory (fun _ => None)
              (fun _ => Some (LDAPBindError "invalidCredentials"))
              (fun _ _ _ _ => SEnd))
           (corp_settings (Some "admin@corp.example.com") (Some "wrong"))
           None None [] (LDAPBindError "invalidCredentials") eq_refl).
Defined.

(** ** Searching, continued *)

(** X14. All that a call of [get_users_info_ad] can do to the directory:
    nothing, and it fails; one refused bind, and it fails; one bind and one
    search in pages of 500, and it fails with the session left bound; or one
    bind, one search and one unbind, and it returns. It never searches on a
    session that did not bind, never binds twice, and unbinds only when it
    returns. *)
Theorem get_users_info_ad_trace_shape d self lu lp users attributes :
  let c := login_connection self lu lp in
  let run := get_users_info_ad d self lu lp users attributes [] in
  (exists e, run = (Err e, []))
  \/ (exists e, run = (Err e, [EvBind c (Some e)]))
  \/ (exists e base f,
        run = (Err e, [EvBind c None; EvPagedSearch c base f attributes 500%Z]))
  \/ (exists results base f,
        run = (Ok results, [EvBind c None;
                            EvPagedSearch c base f attributes 500%Z;
                            EvUnbind c])).
Proof.
  cbv zeta. rewrite get_users_info_ad_run.
  destruct (build_search_filter users) as [f|e]; [| left; eauto].
  destruct (get_search_base self) as [base|e]; [| left; eauto].
  cbv zeta. destruct (server_reply d _) as [e|]; [left; eauto |].
  destruct (bind_reply d _) as [e|]; [right; left; eauto |].
  destruct (fst (collect_entries _ [] [])) as [results|e].
  - right; right; right. now exists results, base, f.
  - right; right; left. now exists e, base, f.
Qed.

(** X15. [get_users_info_ad] returns exactly when every stage succeeds:
    the identifiers give a filter, the stored username gives a base, the
    server object is built, the bind succeeds and the generator ends after
    finitely many entries; what it returns is then those entries without the
    referrals. *)
Theorem get_users_info_ad_returns_iff d self lu lp users attributes t results :
  fst (get_users_info_ad d self lu lp users attributes t) = Ok results <->
  exists f base es,
    build_search_filter users = Ok f
    /\ get_search_base self = Ok base
    /\ server_reply d (conn_server (login_connection self lu lp)) = None
    /\ bind_reply d (login_connection self lu lp) = None
    /\ search_reply d (login_connection self lu lp) base f attributes
       = yield_all es SEnd
    /\ results = List.filter not_referral es.
Proof.
  rewrite get_users_info_ad_run. split.
  - destruct (build_search_filter users) as [f|e]; [| discriminate].
    destruct (get_search_base self) as [base|e]; [| discriminate].
    cbv zeta. destruct (server_reply d _) as [e|]; [discriminate |].
    destruct (bind_reply d _) as [e|]; [discriminate |].
    destruct (stream_cases
                (search_reply d (login_connection self lu lp) base f attributes))
      as [es [Hs | [e Hs]]]; rewrite Hs, collect_entries_yield_all; simpl;
      [| discriminate].
    intros [= <-]. now exists f, base, es.
  - intros (f & base & es & -> & -> & Hsrv & Hb & Hs & ->). cbv zeta.
    now rewrite Hsrv, Hb, Hs, collect_entries_yield_all.
Qed.

Lemma get_users_info_ad_returns_iff_witness :
  exists f base es,
    build_search_filter UsersNone = Ok f
    /\ get_search_base
         (corp_settings (Some "admin@corp.example.com") (Some "secret")) = Ok base
    /\ server_reply open_directory
         (conn_server
            (login_connection
               (corp_settings (Some "admin@corp.example.com") (Some "secret"))
               None None)) = None
    /\ bind_reply open_directory
         (login_connection
            (corp_settings (Some "admin@corp.example.com") (Some "secret"))
            None None) = None
    /\ search_reply open_directory
         (login_connection
            (corp_settings (Some "admin@corp.example.com") (Some "secret"))
            None None) base f "*"
       = yield_all es SEnd
    /\ [bob; carol] = List.filter not_referral es.
Proof.
  exact (proj1 (get_users_info_ad_returns_iff open_directory
                  (corp_settings (Some "admin@corp.example.com") (Some "secret"))
                  None None UsersNone "*" [] [bob; carol]) eq_refl).
Defined.

Lemma filter_no_referral (es : list entry) :
  Forall (fun en : entry => en !! "type" <> Some "searchResRef") es ->
  List.filter not_referral es = es.
Proof.
  induction 1 as [|en es Hen _ IH]; [reflexivity |]. simpl.
  apply not_referral_spec in Hen. now rewrite Hen, IH.
Qed.

(** X16. When the directory delivers no entry whose ["type"] is
    ["searchResRef"], every delivered entry is returned, in order and as
    often as delivered; an entry without a ["type"] key counts as a match. *)
Theorem entries_without_referral_all_returned
    d self lu lp users attributes t f base es :
  build_search_filter users = Ok f ->
  get_search_base self = Ok base ->
  server_reply d (conn_server (login_connection self lu lp)) = None ->
  bind_reply d (login_connection self lu lp) = None ->
  search_reply d (login_connection self lu lp) base f attributes
  = yield_all es SEnd ->
  Forall (fun en : entry => en !! "type" <> Some "searchResRef") es ->
  fst (get_users_info_ad d self lu lp users attributes t) = Ok es.
Proof.
  intros Hf Hb Hsrv Hbind Hs Hall.
  rewrite get_users_info_ad_run, Hf, Hb. cbv zeta.
  rewrite Hsrv, Hbind, Hs, collect_entries_yield_all. simpl. f_equal.
  now apply filter_no_referral.
Qed.

Lemma entries_without_referral_all_returned_witness :
  fst (get_users_info_ad
         (mkDirectory (fun _ => None) (fun _ => None)
            (fun _ _ _ _ => yield_all [no_type; bob; no_type] SEnd))
         (corp_settings (Some "admin@corp.example.com") (Some "secret"))
         None None UsersNone "*" [])
  = Ok [no_type; bob; no_type].
Proof.
  apply (entries_without_referral_all_returned
           (mkDirectory (fun _ => None) (fun _ => None)
              (fun _ _ _ _ => yield_all [no_type; bob; no_type] SEnd))
           (corp_settings (Some "admin@corp.example.com") (Some "secret"))
           None None UsersNone "*" []
           "(objectClass=person)" "dc=corp,dc=example,dc=com"
           [no_type; bob; no_type] eq_refl eq_refl eq_refl eq_refl eq_refl).
  repeat constructor; discriminate.
Defined.

(** X17. Whitespace around the identifiers does not change the filter, and
    a tuple gives the filter of the list with the same items. *)
Theorem search_filter_ignores_padding (ids : list string) :
  build_search_filter (UsersList (map Py.strip ids))
  = build_search_filter (UsersList ids)
  /\ build_search_filter (UsersTuple ids) = build_search_filter (UsersList ids).
Proof.
  split; [| reflexivity].
  unfold build_search_filter. destruct ids as [|id ids]; [reflexivity |].
  change (users_truthy (UsersList (map Py.strip (id :: ids)))) with true.
  change (users_truthy (UsersList (id :: ids))) with true.
  cbn [negb users_items]. do 3 f_equal.
  rewrite map_map. f_equal. apply map_ext.
  intros a. now rewrite strip_idempotent.
Qed.

(** ** The account-control values *)

Lemma uac_values_positive (v : Z) :
  In v UserAccountControlValues.values -> (0 < v)%Z.
Proof.
  unfold UserAccountControlValues.values. simpl.
  intros H. repeat (destruct H as [<- | H]; [reflexivity |]). contradiction.
Qed.

Lemma uac_values_disjoint (a b : Z) :
  In a UserAccountControlValues.values ->
  In b UserAccountControlValues.values ->
  a = b \/ Z.land a b = 0%Z.
Proof.
  unfold UserAccountControlValues.values. simpl.
  intros Ha Hb.
  repeat (destruct Ha as [<- | Ha];
          [repeat (destruct Hb as [<- | Hb];
                   [first [left; reflexivity | right; reflexivity] |]);
           contradiction |]).
  contradiction.
Qed.

(** X18. The account-control values are separate bits: in the bitwise or
    of any of them, a value of the class is set exactly when it is one of
    those combined, so a combination of flags can be read back flag by flag. *)
Theorem uac_flags_read_back (l : list Z) (v : Z) :
  (forall x, In x l -> In x UserAccountControlValues.values) ->
  In v UserAccountControlValues.values ->
  Z.land (flags_or l) v <> 0%Z <-> In v l.
Proof.
  intros Hl Hv. induction l as [|a l IH].
  - simpl. split; [intros H; now apply H | intros []].
  - assert (In a UserAccountControlValues.values) as Ha by (apply Hl; now left).
    assert (forall x, In x l -> In x UserAccountControlValues.values) as Hl'
      by (intros x Hx; apply Hl; now right).
    specialize (IH Hl').
    change (flags_or (a :: l)) with (Z.lor a (flags_or l)).
    rewrite Z.land_lor_distr_l, Z.lor_eq_0_iff. simpl.
    destruct (uac_values_disjoint a v Ha Hv) as [-> | Hd].
    + split; [now left |]. intros _ [H _].
      rewrite Z.land_diag in H. pose proof (uac_values_positive v Hv). lia.
    + split.
      * intros H. right. apply IH. intros H0. apply H. now split.
      * intros [-> | Hin] [H1 H2].
        -- rewrite Z.land_diag in Hd. pose proof (uac_values_positive v Hv). lia.
        -- now apply IH in Hin.
Qed.

Lemma uac_flags_read_back_witness :
  Z.land (flags_or [UserAccountControlValues.NORMAL_ACCOUNT;
                    UserAccountControlValues.ACCOUNTDISABLE])
         UserAccountControlValues.ACCOUNTDISABLE <> 0%Z
  <-> In UserAccountControlValues.ACCOUNTDISABLE
         [UserAccountControlValues.NORMAL_ACCOUNT;
          UserAccountControlValues.ACCOUNTDISABLE].
Proof.
  apply uac_flags_read_back.
  - intros x [<- | [<- | []]]; unfold UserAccountControlValues.values; simpl; tauto.
  - unfold UserAccountControlValues.values; simpl; tauto.
Defined.
